(** * truepick backend: the cognitive engine and its retrieval layer

    A shallow embedding of [backend/app/agents.py] and [backend/app/rag.py].
    Every Python function becomes a computation in a small state-and-exception
    monad over the process-wide resources the functions could touch (the
    vector store, the knowledge-base files, the replies of the language
    model).  The statements at the end compare what the functions return
    with what the design document asks of them. *)

From Stdlib Require Import ZArith String List.
From stdpp Require Import base option gmap strings.

Local Set Warnings "-register-all".
Local Open Scope Z_scope.
Local Open Scope string_scope.

(** ** Python values *)

(** [langgraph.graph.CompiledGraph], as far as its shape matters here: the
    nodes that were added and the directed edges between them. *)
Record CompiledGraph := {
  graph_nodes : list string;
  graph_edges : list (string * string)
}.

(** The run-time values the functions of [agents.py] and [rag.py] can take or
    return.  A [TypedDict] is a plain [dict] at run time. *)
Inductive PyVal :=
| PyNone
| PyBool (b : bool)
| PyInt (z : Z)
| PyStr (s : string)
| PyList (l : list PyVal)
| PyDict (d : gmap string PyVal)
| PyGraph (g : CompiledGraph).

(** [class AgentState(TypedDict): pass] declares no key at all, so an agent
    state is any dictionary from slot names to values. *)
Abbreviation AgentState := (gmap string PyVal).

Inductive PyExn :=
| TypeError
| KeyError
| AttributeError
| ValidationError.

Inductive Result (A : Type) :=
| Ok (a : A)
| Raise (e : PyExn).
Arguments Ok {A} a.
Arguments Raise {A} e.

(** ** The resources outside the functions *)

(** One entry of the ChromaDB collection. *)
Record Chunk := {
  chunk_text : string;
  chunk_embedding : list Z;
  chunk_source : string
}.

(** Everything a node could read or change besides its argument: the vector
    store (chunk id to entry), the files under each knowledge-base directory
    (name and text), and the replies the language model is going to give. *)
Record World := {
  vector_store : gmap string Chunk;
  knowledge_files : gmap string (list (string * string));
  reasoner_replies : list string
}.

(** A Python computation: runs in a world, returns a value or raises, and
    leaves a world behind.  No body in the two modules assigns to its
    argument, so arguments are passed as values. *)
Definition Py (A : Type) : Type := World -> Result A * World.

Definition py_ret {A} (a : A) : Py A := fun w => (Ok a, w).

Definition py_bind {A B} (c : Py A) (k : A -> Py B) : Py B :=
  fun w =>
    match c w with
    | (Ok a, w') => k a w'
    | (Raise e, w') => (Raise e, w')
    end.

#[export] Instance Py_ret : MRet Py := @py_ret.
#[export] Instance Py_bind : MBind Py := fun A B k c => py_bind c k.

(** The statement [pass]. *)
Definition pass : Py unit := py_ret tt.

(** A [def] whose body holds no [return]: the body runs, then the call
    evaluates to [None]. *)
Definition def_without_return (body : Py unit) : Py PyVal :=
  _ ← body; mret PyNone.

(** ** What a caller can do with a returned value *)

(** [v[key]]. *)
Definition py_getitem (v : PyVal) (key : string) : Result PyVal :=
  match v with
  | PyDict d =>
      match d !! key with
      | Some x => Ok x
      | None => Raise KeyError
      end
  | _ => Raise TypeError
  end.

(** Reading slot [key] of what a call produced. *)
Definition read_slot (r : Result PyVal) (key : string) : Result PyVal :=
  match r with
  | Ok v => py_getitem v key
  | Raise e => Raise e
  end.

(** The boolean held in slot [key], when there is one. *)
Definition read_bool (r : Result PyVal) (key : string) : option bool :=
  match read_slot r key with
  | Ok (PyBool b) => Some b
  | _ => None
  end.

(** The text held in slot [key], when there is one. *)
Definition read_str (r : Result PyVal) (key : string) : option string :=
  match read_slot r key with
  | Ok (PyStr s) => Some s
  | _ => None
  end.

(** [isinstance(r, str)], [isinstance(r, int)], [isinstance(r, dict)] and
    [isinstance(r, CompiledGraph)] on the outcome of a call. *)
Definition result_is_str (r : Result PyVal) : bool :=
  match r with Ok (PyStr _) => true | _ => false end.

Definition result_is_int (r : Result PyVal) : bool :=
  match r with Ok (PyInt _) => true | _ => false end.

Definition result_is_dict (r : Result PyVal) : bool :=
  match r with Ok (PyDict _) => true | _ => false end.

Definition result_is_graph (r : Result PyVal) : bool :=
  match r with Ok (PyGraph _) => true | _ => false end.

(** The exception a call ended with, if it raised. *)
Definition raised {A} (r : Result A) : option PyExn :=
  match r with
  | Ok _ => None
  | Raise e => Some e
  end.

(** ** rag.py *)

Module Rag.

(** [def get_vector_store() -> Client: pass] *)
Definition get_vector_store : Py PyVal :=
  def_without_return pass.

(** [def ingest_knowledge_base(directory_path: str) -> int: pass] *)
Definition ingest_knowledge_base (directory_path : string) : Py PyVal :=
  def_without_return pass.

(** [def retrieve_context(query: str, k: int = 3) -> str: pass] *)
Definition retrieve_context (query : string) (k : Z) : Py PyVal :=
  def_without_return pass.

(** The call [retrieve_context(query)], with the default [k = 3]. *)
Definition retrieve_context_default (query : string) : Py PyVal :=
  retrieve_context query 3.

End Rag.

(** ** agents.py *)

Module Agents.

(** [def node_profiler(state: AgentState) -> AgentState: pass] *)
Definition node_profiler (state : AgentState) : Py PyVal :=
  def_without_return pass.

(** [def node_psychologist(state: AgentState) -> AgentState: pass] *)
Definition node_psychologist (state : AgentState) : Py PyVal :=
  def_without_return pass.

(** [def node_decision_maker(state: AgentState) -> AgentState: pass] *)
Definition node_decision_maker (state : AgentState) : Py PyVal :=
  def_without_return pass.

(** [def node_synthesizer(state: AgentState) -> AgentState: pass] *)
Definition node_synthesizer (state : AgentState) : Py PyVal :=
  def_without_return pass.

(** [def compile_workflow() -> CompiledGraph: pass] *)
Definition compile_workflow : Py PyVal :=
  def_without_return pass.

End Agents.

(** [len(r)] on the outcome of a call. *)
Definition result_len (r : Result PyVal) : Result Z :=
  match r with
  | Ok (PyStr s) => Ok (Z.of_nat (String.length s))
  | Ok (PyList l) => Ok (Z.of_nat (List.length l))
  | Ok (PyDict d) => Ok (Z.of_nat (size d))
  | Ok _ => Raise TypeError
  | Raise e => Raise e
  end.

(** ** The policies of the design document

    These definitions follow the words of the design document, not the
    Python code; the statements below compare the two. *)

Module Design.

(** The final labels of a SynthesisVerdict. *)
Inductive Verdict :=
| Approve
| ApproveWithCaveats
| Warn
| Reject.

Definition verdict_label (v : Verdict) : string :=
  match v with
  | Approve => "approve"
  | ApproveWithCaveats => "approve-with-caveats"
  | Warn => "warn"
  | Reject => "reject"
  end.

(** The resolution table of the Synthesizer: affordable and not impulsive is
    approved, affordable and impulsive is approved with caveats, not
    affordable and not impulsive is a compromise treated as approval with
    caveats, not affordable and impulsive is rejected. *)
Definition resolution_table (affordable impulsive : bool) : Verdict :=
  match affordable, impulsive with
  | true, false => Approve
  | true, true => ApproveWithCaveats
  | false, false => ApproveWithCaveats
  | false, true => Reject
  end.

(** The inclusive threshold of the Analytic Evaluator: a price up to and
    including the budget is affordable. *)
Definition affordable (price budget : Z) : bool := (price <=? budget)%Z.

End Design.

(** Whether slot [key] of an outcome holds the label of verdict [v]. *)
Definition carries_label (r : Result PyVal) (key : string) (v : Design.Verdict) : bool :=
  match read_str r key with
  | Some s => String.eqb s (Design.verdict_label v)
  | None => false
  end.

(** ** Inputs *)

(** The state the synthesizer is given: the two structured verdicts of the
    evaluators and the free text that comes with them. *)
Definition synthesis_input (affordable impulsive : bool) (rationale : string)
  : AgentState :=
  <["affordable" := PyBool affordable]>
    (<["impulsive" := PyBool impulsive]>
       (<["rationale" := PyStr rationale]> ∅)).

(** The state the decision maker is given: the price of the item and the
    budget of the profile. *)
Definition purchase_input (price budget : Z) : AgentState :=
  <["price" := PyInt price]> (<["budget" := PyInt budget]> ∅).

(** A quiz submission with no answer in it. *)
Definition incomplete_quiz : AgentState := ∅.

(** The state the psychologist is given. *)
Definition item_input (item_name : string) : AgentState :=
  <["item_name" := PyStr item_name]> ∅.

(** A world whose vector store holds nothing. *)
Definition empty_store_world
  (files : gmap string (list (string * string))) (replies : list string) : World :=
  {| vector_store := ∅; knowledge_files := files; reasoner_replies := replies |}.

(** A knowledge base of one directory with one short document, not yet
    ingested. *)
Definition one_document_world : World :=
  empty_store_world
    (<["kb" := [("scarcity.txt", "Limited offers push people to buy.")]]> ∅)
    [].

(** ** Properties of a node *)

(** The outcome does not depend on anything outside the argument. *)
Definition output_independent_of_world (f : AgentState -> Py PyVal) : Prop :=
  forall (state : AgentState) (w1 w2 : World), (f state w1).1 = (f state w2).1.

(** Calling again, in the world the first call left, gives the same outcome. *)
Definition repeatable (f : AgentState -> Py PyVal) : Prop :=
  forall (state : AgentState) (w : World),
    (f state (f state w).2).1 = (f state w).1.

(** The call changes nothing outside its argument. *)
Definition leaves_world (f : AgentState -> Py PyVal) : Prop :=
  forall (state : AgentState) (w : World), (f state w).2 = w.

Definition deterministic_node (f : AgentState -> Py PyVal) : Prop :=
  output_independent_of_world f /\ repeatable f /\ leaves_world f.

(** ** database.py and main.py *)

(** What the web layer runs on: the world of the agents, the tables of the
    SQLite database with their rows, and the number of sessions handed out
    and not yet closed. *)
Record Backend := {
  backend_world : World;
  database_tables : gmap string (list PyVal);
  open_sessions : nat
}.

(** A computation of the web layer. *)
Definition Io (A : Type) : Type := Backend -> Result A * Backend.

Definition io_ret {A} (a : A) : Io A := fun b => (Ok a, b).

Definition io_bind {A B} (c : Io A) (k : A -> Io B) : Io B :=
  fun b =>
    match c b with
    | (Ok a, b') => k a b'
    | (Raise e, b') => (Raise e, b')
    end.

#[export] Instance Io_ret : MRet Io := @io_ret.
#[export] Instance Io_bind : MBind Io := fun A B k c => io_bind c k.

(** [pass] and a body without [return], in the web layer. *)
Definition io_pass : Io unit := io_ret tt.

Definition io_def_without_return (body : Io unit) : Io PyVal :=
  _ ← body; mret PyNone.

Module Database.

(** [SQLALCHEMY_DATABASE_URL = "sqlite:///./nopamine.db"] *)
Definition SQLALCHEMY_DATABASE_URL : string := "sqlite:///./nopamine.db".

(** [def get_db() -> Generator[Session, None, None]: pass].  The body holds
    no [yield], so this is a plain function and not a generator. *)
Definition get_db : Io PyVal :=
  io_def_without_return io_pass.

(** [def init_db() -> None: pass] *)
Definition init_db : Io PyVal :=
  io_def_without_return io_pass.

End Database.

Module Main.

(** [@asynccontextmanager async def app_lifespan(app)]: the part before the
    [yield] runs on entry ([init_db()]), the bare [yield] hands [None] to the
    block that is served inside the context, and nothing follows the [yield]
    on exit.  An exception of the block is thrown in at the [yield], which
    no [try] surrounds, and so leaves the context as it is. *)
Definition app_lifespan {A} (app : PyVal) (serving : PyVal -> Io A) : Io A :=
  _ ← Database.init_db;
  r ← serving PyNone;
  mret r.

(** [async def submit_quiz(quiz_data, db = Depends(get_db)): pass], awaited. *)
Definition submit_quiz (quiz_data db : PyVal) : Io PyVal :=
  io_def_without_return io_pass.

(** [async def consult_purchase(purchase, db = Depends(get_db)): pass],
    awaited. *)
Definition consult_purchase (purchase db : PyVal) : Io PyVal :=
  io_def_without_return io_pass.

(** [async def health_check(): pass], awaited. *)
Definition health_check : Io PyVal :=
  io_def_without_return io_pass.

End Main.

(** ** Client programs of database.py and main.py *)

(** One direct call of a function of the two modules, with its arguments;
    the coroutines are awaited.  These are calls of the Python functions
    themselves: what the web framework does with a returned value when it
    builds a response is no part of their bodies. *)
Inductive BackendCall :=
| CallInitDb
| CallGetDb
| CallSubmitQuiz (quiz_data db : PyVal)
| CallConsultPurchase (purchase db : PyVal)
| CallHealthCheck.

Definition run_backend_call (c : BackendCall) : Io PyVal :=
  match c with
  | CallInitDb => Database.init_db
  | CallGetDb => Database.get_db
  | CallSubmitQuiz quiz_data db => Main.submit_quiz quiz_data db
  | CallConsultPurchase purchase db => Main.consult_purchase purchase db
  | CallHealthCheck => Main.health_check
  end.

(** A straight-line program of such calls, each run in the backend the one
    before it left; the values returned, in order. *)
Fixpoint run_backend_calls (calls : list BackendCall) : Io (list PyVal) :=
  match calls with
  | [] => mret []
  | c :: rest =>
      v ← run_backend_call c;
      vs ← run_backend_calls rest;
      mret (v :: vs)
  end.

(** ** Client programs of rag.py and agents.py *)

(** One call of a function of the two modules, with its arguments;
    [retrieve_context] with or without its [k]. *)
Inductive ApiCall :=
| CallGetVectorStore
| CallIngestKnowledgeBase (directory_path : string)
| CallRetrieveContext (query : string) (k : option Z)
| CallNodeProfiler (state : AgentState)
| CallNodePsychologist (state : AgentState)
| CallNodeDecisionMaker (state : AgentState)
| CallNodeSynthesizer (state : AgentState)
| CallCompileWorkflow.

Definition run_call (c : ApiCall) : Py PyVal :=
  match c with
  | CallGetVectorStore => Rag.get_vector_store
  | CallIngestKnowledgeBase directory_path => Rag.ingest_knowledge_base directory_path
  | CallRetrieveContext query (Some k) => Rag.retrieve_context query k
  | CallRetrieveContext query None => Rag.retrieve_context_default query
  | CallNodeProfiler state => Agents.node_profiler state
  | CallNodePsychologist state => Agents.node_psychologist state
  | CallNodeDecisionMaker state => Agents.node_decision_maker state
  | CallNodeSynthesizer state => Agents.node_synthesizer state
  | CallCompileWorkflow => Agents.compile_workflow
  end.

(** A straight-line program of calls, each run in the world the one before
    it left; the values returned, in order.  It stops at the first call that
    raises. *)
Fixpoint run_calls (calls : list ApiCall) : Py (list PyVal) :=
  match calls with
  | [] => mret []
  | c :: rest =>
      v ← run_call c;
      vs ← run_calls rest;
      mret (v :: vs)
  end.

(** ** Verdicts at two prices *)


(** ** Runs of the compiled workflow *)



Section WorkflowRuns.

(** The LangGraph runtime is no part of the repository: for a compiled graph
    and an input state, the runs it may make, each as the node names in the
    order they ran. *)
Variable graph_runs : CompiledGraph -> AgentState -> list (list string).


End WorkflowRuns.

(** ** Shared facts *)

(** A body that is only [pass] returns [None] and touches nothing. *)
Lemma def_without_return_pass (w : World) :
  def_without_return pass w = (Ok PyNone, w).
Proof. reflexivity. Qed.

(** [None] is not subscriptable. *)
Lemma read_slot_none (key : string) :
  read_slot (Ok PyNone) key = Raise TypeError.
Proof. reflexivity. Qed.

Lemma read_bool_none (key : string) : read_bool (Ok PyNone) key = None.
Proof. reflexivity. Qed.

Lemma carries_label_none (key : string) (v : Design.Verdict) :
  carries_label (Ok PyNone) key v = false.
Proof. reflexivity. Qed.

(** A function whose body is [pass] is deterministic in every sense above. *)
Lemma pass_body_deterministic (f : AgentState -> Py PyVal) :
  (forall state, f state = def_without_return pass) -> deterministic_node f.
Proof.
  intros Hf. repeat split.
  - intros state w1 w2. now rewrite Hf, !def_without_return_pass.
  - intros state w. now rewrite Hf, !def_without_return_pass.
  - intros state w. now rewrite Hf, def_without_return_pass.
Qed.

(** The table of the design gives each pair of verdicts one label, whatever
    the rationale. *)
Lemma resolution_table_cases :
  Design.resolution_table true false = Design.Approve
  /\ Design.resolution_table true true = Design.ApproveWithCaveats
  /\ Design.resolution_table false false = Design.ApproveWithCaveats
  /\ Design.resolution_table false true = Design.Reject.
Proof. repeat split. Qed.

(** The threshold of the design is inclusive and antitone in the price. *)
Lemma design_affordable_boundary (price : Z) : Design.affordable price price = true.
Proof. unfold Design.affordable. apply Z.leb_refl. Qed.

Lemma design_affordable_antitone (budget p1 p2 : Z) :
  (p1 <= p2)%Z ->
  Design.affordable p1 budget = false -> Design.affordable p2 budget = false.
Proof.
  unfold Design.affordable. intros Hle H1.
  apply Z.leb_gt in H1. apply Z.leb_gt. lia.
Qed.

(** ** The synthesizer *)

(** C1. The design asks that the label of the synthesizer be the entry of
    the resolution table for the pair (affordable, impulsive).  On the code,
    for every such pair, every rationale and every world,
    [node_synthesizer] returns [None] and leaves the world as it was: no
    slot of the outcome can be read, and no slot carries the label of the
    table.  (The outcome is the same on every run and for every rationale,
    but it is not a label.) *)
Theorem node_synthesizer_carries_no_label :
  forall (affordable impulsive : bool) (rationale : string) (w : World)
         (key : string),
    Agents.node_synthesizer (synthesis_input affordable impulsive rationale) w
      = (Ok PyNone, w)
    /\ read_slot
         (Agents.node_synthesizer (synthesis_input affordable impulsive rationale) w).1
         key = Raise TypeError
    /\ carries_label
         (Agents.node_synthesizer (synthesis_input affordable impulsive rationale) w).1
         key (Design.resolution_table affordable impulsive) = false.
Proof.
  intros affordable impulsive rationale w key.
  unfold Agents.node_synthesizer.
  rewrite def_without_return_pass. cbn [fst].
  split; [reflexivity|].
  split; [apply read_slot_none | apply carries_label_none].
Qed.

(** ** The decision maker *)

(** C2. The design asks that a price equal to the budget be affordable.  On
    the code, for every price, [node_decision_maker] run on a purchase
    whose price equals the budget returns [None]: no slot of the outcome
    holds a boolean, where the threshold of the design gives [true]. *)
Theorem node_decision_maker_boundary_no_verdict :
  forall (price : Z) (w : World) (key : string),
    Agents.node_decision_maker (purchase_input price price) w = (Ok PyNone, w)
    /\ read_bool (Agents.node_decision_maker (purchase_input price price) w).1 key
       = None
    /\ Design.affordable price price = true.
Proof.
  intros price w key.
  unfold Agents.node_decision_maker.
  rewrite def_without_return_pass. cbn [fst].
  split; [reflexivity|].
  split; [apply read_bool_none | apply design_affordable_boundary].
Qed.




(** ** Retrieval and ingestion *)

(** C4. The design asks that retrieval return at most [k] chunk texts, in
    descending similarity, joined into one string, and the empty result on an
    empty store.  On the code, for every query, every [k] and every world,
    [retrieve_context] returns [None]: the outcome is no string, it has no
    length to compare with [k], and on the empty store it is [None] as
    well. *)
Theorem retrieve_context_returns_no_text :
  forall (query : string) (k : Z) (w : World),
    Rag.retrieve_context query k w = (Ok PyNone, w)
    /\ result_is_str (Rag.retrieve_context query k w).1 = false
    /\ result_len (Rag.retrieve_context query k w).1 = Raise TypeError
    /\ (Rag.retrieve_context query k (empty_store_world ∅ [])).1 = Ok PyNone.
Proof.
  intros query k w.
  unfold Rag.retrieve_context.
  rewrite !def_without_return_pass. cbn [fst].
  repeat split.
Qed.

(** C5. The design asks that ingesting a directory upsert each chunk under
    a stable id and return the number of chunks.  On the code, for every
    directory and every world, ingesting twice returns [None] both times, no
    integer, and the vector store after the two calls is the store before
    them: nothing is written, for a directory with a document in it
    either. *)
Theorem ingest_knowledge_base_twice_writes_nothing :
  forall (directory_path : string) (w : World),
    let first := Rag.ingest_knowledge_base directory_path w in
    let second := Rag.ingest_knowledge_base directory_path first.2 in
    first.1 = Ok PyNone
    /\ second.1 = Ok PyNone
    /\ result_is_int first.1 = false
    /\ vector_store second.2 = vector_store w
    /\ vector_store (Rag.ingest_knowledge_base "kb" one_document_world).2 = ∅.
Proof.
  intros directory_path w. cbv zeta.
  unfold Rag.ingest_knowledge_base.
  rewrite !def_without_return_pass. cbn [fst snd].
  repeat split.
Qed.

(** C9. For every query and every [k], [retrieve_context] returns [None],
    not a string; for every directory path, [ingest_knowledge_base] returns
    [None], not an integer.  Neither call raises, and neither changes the
    world. *)
Theorem rag_operations_return_none :
  forall (query : string) (k : Z) (directory_path : string) (w : World),
    Rag.retrieve_context query k w = (Ok PyNone, w)
    /\ result_is_str (Rag.retrieve_context query k w).1 = false
    /\ Rag.retrieve_context_default query w = (Ok PyNone, w)
    /\ Rag.ingest_knowledge_base directory_path w = (Ok PyNone, w)
    /\ result_is_int (Rag.ingest_knowledge_base directory_path w).1 = false.
Proof.
  intros query k directory_path w.
  unfold Rag.retrieve_context_default, Rag.retrieve_context,
    Rag.ingest_knowledge_base.
  rewrite def_without_return_pass.
  repeat split.
Qed.

(** ** The profiler and the psychologist *)

(** C6. The design asks that an incomplete answer set be refused with a
    validation error.  On the code, for every state, the one with no answer
    at all among them, and every world, [node_profiler] returns [None]:
    nothing is raised, and no profile, partial or whole, is produced. *)
Theorem node_profiler_accepts_incomplete_answers :
  forall (state : AgentState) (w : World),
    Agents.node_profiler state w = (Ok PyNone, w)
    /\ Agents.node_profiler incomplete_quiz w = (Ok PyNone, w)
    /\ raised (Agents.node_profiler incomplete_quiz w).1 = None
    /\ result_is_dict (Agents.node_profiler state w).1 = false.
Proof.
  intros state w.
  unfold Agents.node_profiler.
  rewrite def_without_return_pass.
  repeat split.
Qed.

(** C7. The design asks that, with nothing retrieved, the psychologist
    still give an assessment and the workflow still complete.  On the code,
    for every item and every world with an empty vector store,
    [node_psychologist] returns [None], of which no slot can be read, and
    [compile_workflow] returns no graph that could be run. *)
Theorem node_psychologist_empty_store_no_assessment :
  forall (item_name : string) (files : gmap string (list (string * string)))
         (replies : list string) (key : string),
    let w := empty_store_world files replies in
    Agents.node_psychologist (item_input item_name) w = (Ok PyNone, w)
    /\ result_is_dict (Agents.node_psychologist (item_input item_name) w).1 = false
    /\ read_slot (Agents.node_psychologist (item_input item_name) w).1 key
       = Raise TypeError
    /\ result_is_graph (Agents.compile_workflow w).1 = false.
Proof.
  intros item_name files replies key. cbv zeta.
  unfold Agents.node_psychologist, Agents.compile_workflow.
  rewrite def_without_return_pass.
  repeat split.
Qed.

(** ** The workflow *)


(** C10. Each of [node_profiler], [node_psychologist],
    [node_decision_maker] and [node_synthesizer] is deterministic: its
    outcome on a state is the same in every world, a second call on the same
    state gives the same outcome as the first, and no call changes the
    world. *)
Theorem nodes_are_deterministic :
  deterministic_node Agents.node_profiler
  /\ deterministic_node Agents.node_psychologist
  /\ deterministic_node Agents.node_decision_maker
  /\ deterministic_node Agents.node_synthesizer.
Proof.
  repeat apply conj; apply pass_body_deterministic; intros state; reflexivity.
Qed.

(** ** The web layer *)

Lemma io_def_without_return_pass (b : Backend) :
  io_def_without_return io_pass b = (Ok PyNone, b).
Proof. reflexivity. Qed.

(** Binding after a computation that returns [v] and changes nothing runs
    the continuation on [v] in the same backend. *)
Lemma io_bind_returning {A B} (c : Io A) (k : A -> Io B) (v : A) (b : Backend) :
  c b = (Ok v, b) -> (x ← c; k x) b = k v b.
Proof.
  intros Hc. unfold mbind, Io_bind, io_bind. now rewrite Hc.
Qed.

(** Returning the value of a computation as it is adds nothing to it,
    whether it ends well or raises. *)
Lemma io_bind_mret {A} (c : Io A) (b : Backend) :
  (x ← c; mret x) b = c b.
Proof.
  unfold mbind, mret, Io_bind, Io_ret, io_bind, io_ret.
  destruct (c b) as [[a|e] b']; reflexivity.
Qed.

Lemma run_backend_call_returns_none (c : BackendCall) (b : Backend) :
  run_backend_call c b = (Ok PyNone, b).
Proof. destruct c; reflexivity. Qed.

Lemma run_backend_calls_return_nones (calls : list BackendCall) (b : Backend) :
  run_backend_calls calls b = (Ok (replicate (length calls) PyNone), b).
Proof.
  induction calls as [|c rest IH]; [reflexivity|].
  cbn [run_backend_calls length replicate].
  rewrite (io_bind_returning _ _ PyNone b (run_backend_call_returns_none c b)).
  rewrite (io_bind_returning _ _ _ b IH).
  reflexivity.
Qed.

(** X1. The lifespan context adds nothing to what is served inside it: for
    every application object and every block, running the block inside
    [app_lifespan] gives the outcome and the backend that the block gives on
    [None] by itself.  The start-up call of [init_db] creates no table and
    opens no session, and an exception of the block comes out unchanged. *)
Theorem app_lifespan_transparent :
  forall (A : Type) (app : PyVal) (serving : PyVal -> Io A) (b : Backend),
    Main.app_lifespan app serving b = serving PyNone b.
Proof.
  intros A app serving b.
  unfold Main.app_lifespan, Database.init_db.
  rewrite (io_bind_returning _ _ PyNone b (io_def_without_return_pass b)).
  apply io_bind_mret.
Qed.

(** X2. Every straight-line program of direct calls of [init_db],
    [get_db], [submit_quiz], [consult_purchase] and [health_check], on
    whatever arguments and backend, by itself or inside the lifespan
    context: every call returns [None], none raises, and the backend at the
    end is the backend at the start, with the same tables and rows, the same
    open sessions and the same vector store. *)
Theorem backend_calls_change_nothing :
  forall (app : PyVal) (calls : list BackendCall) (b : Backend),
    run_backend_calls calls b = (Ok (replicate (length calls) PyNone), b)
    /\ Main.app_lifespan app (fun _ => run_backend_calls calls) b
       = (Ok (replicate (length calls) PyNone), b).
Proof.
  intros app calls b.
  split; [apply run_backend_calls_return_nones|].
  unfold Main.app_lifespan, Database.init_db.
  rewrite (io_bind_returning _ _ PyNone b (io_def_without_return_pass b)).
  rewrite io_bind_mret.
  apply run_backend_calls_return_nones.
Qed.

(** ** Client programs *)

Lemma py_bind_returning {A B} (c : Py A) (k : A -> Py B) (v : A) (w : World) :
  c w = (Ok v, w) -> (x ← c; k x) w = k v w.
Proof.
  intros Hc. unfold mbind, Py_bind, py_bind. now rewrite Hc.
Qed.

Lemma run_call_returns_none (c : ApiCall) (w : World) :
  run_call c w = (Ok PyNone, w).
Proof. destruct c as [| |query [k|]| | | | |]; reflexivity. Qed.

(** X3. Every straight-line program of calls of the functions of [rag.py]
    and [agents.py], in every world, runs to its end without raising,
    returns [None] from each call, and leaves the world it started in: no
    order or number of ingestions, retrievals and node calls ever puts a
    chunk into the vector store. *)
Theorem api_calls_change_nothing :
  forall (calls : list ApiCall) (w : World),
    run_calls calls w = (Ok (replicate (length calls) PyNone), w).
Proof.
  intros calls w.
  induction calls as [|c rest IH]; [reflexivity|].
  cbn [run_calls length replicate].
  rewrite (py_bind_returning _ _ PyNone w (run_call_returns_none c w)).
  rewrite (py_bind_returning _ _ _ w IH).
  reflexivity.
Qed.
